(** * The training-phase orchestrator of [train_vicap.py]

    A shallow embedding of [main] and [run_main]: the rank arithmetic, the
    cumulative phase boundaries, the epoch loop with its rank-conditional
    evaluation and checkpoint calls, and the end-of-epoch barrier.

    Integers are [Z] (Python integers are unbounded), metric values are
    rationals [Q] (comparison of finite floats is a total order; NaN is outside
    the model), file names are strings, and the checkpoint directory is a finite
    map from file names to the record last written under each name.

    The worker is sequential code that calls collaborators imported from other
    modules ([train_xe], [evaluate_metrics], [save_checkpoint], the process
    group).  Every such call is recorded, in program order, in the list of
    calls of the worker; what a call returns to [main] is an explicit
    argument of the model. *)

From stdpp Require Import gmap strings pretty list list_numbers.
From Stdlib Require Import QArith Ascii.

#[local] Set Warnings "-clear-no-such-hyp".

Local Open Scope Z_scope.

(** ** Configuration *)

(** The fields of [config.exp] and [config.optimizer] that [main] reads. *)
Record ExpConfig := {
  rank : Z;             (* config.exp.rank: index of the node *)
  ngpus_per_node : Z;   (* config.exp.ngpus_per_node *)
  world_size : Z;       (* config.exp.world_size *)
  seed : Z              (* config.exp.seed *)
}.

Record OptimizerConfig := {
  freezing_xe_epochs : Z;
  freezing_sc_epochs : Z;
  finetune_xe_epochs : Z;
  finetune_sc_epochs : Z
}.

Record Config := {
  exp : ExpConfig;
  optimizer : OptimizerConfig
}.

(** ** Calls to collaborators *)

Inductive Split := valid | test.

#[global] Instance Split_eq_dec : EqDecision Split.
Proof. solve_decision. Defined.

(** The keyword arguments of a [save_checkpoint] call that the orchestrator
    chooses (model, optimizers, scheduler and config are passed through). *)
Record CheckpointRecord := {
  ckpt_epoch : Z;
  ckpt_scores : list Q;
  ckpt_best_ciders : list Q;
  ckpt_filename : string
}.

(** One constructor per collaborator entry point.  [train_sc] and
    [load_checkpoint] are the reward-based training step and the restore
    operation of the engine; [main] has no call site for either. *)
Inductive Call :=
| init_process_group (rank world_size : Z)
| manual_seed (seed : Z)
| set_device (gpu : Z)
| load_detector
| build_optimizers (mode : string)
| summary_writer
| train_xe (epoch rank : Z)
| train_sc (epoch rank : Z)
| set_epoch (epoch : Z)
| evaluate (epoch : Z) (split : Split) (best_cider : Q) (which : string)
| save (r : CheckpointRecord)
| load_checkpoint (filename : string)
| barrier.

(** ** Worker state *)

(** The local variables of [main] that the loop updates, and the calls made
    so far (oldest first). *)
Record Worker := {
  best_cider_val : Q;
  best_cider_test : Q;
  calls : list Call
}.

Definition call (c : Call) (w : Worker) : Worker :=
  {| best_cider_val := best_cider_val w;
     best_cider_test := best_cider_test w;
     calls := calls w ++ [c] |}.

Definition set_best_cider_val (q : Q) (w : Worker) : Worker :=
  {| best_cider_val := q;
     best_cider_test := best_cider_test w;
     calls := calls w |}.

Definition set_best_cider_test (q : Q) (w : Worker) : Worker :=
  {| best_cider_val := best_cider_val w;
     best_cider_test := q;
     calls := calls w |}.

(** A Python function either returns or raises. *)
Inductive Error :=
| ConfigError | InitializationError | RestoreError | EvaluationFailure.

Inductive Outcome :=
| Returned (w : Worker)
| Raised (e : Error) (w : Worker).

(** ** Python helpers *)

(** [range(lo, hi)]: [lo, lo+1, ..., hi-1], empty when [hi <= lo]. *)
Definition range (lo hi : Z) : list Z := seqZ lo (hi - lo).

(** [f'checkpoint_{x}.pth'] *)
Definition checkpoint_name (x : string) : string :=
  "checkpoint_" +:+ x +:+ ".pth".

(** ** Lines 62-66: cumulative phase boundaries *)

Definition fr_xe_epochs (c : Config) : Z := freezing_xe_epochs (optimizer c).
Definition fr_sc_epochs (c : Config) : Z := fr_xe_epochs c + freezing_sc_epochs (optimizer c).
Definition ft_xe_epochs (c : Config) : Z := fr_sc_epochs c + finetune_xe_epochs (optimizer c).
Definition ft_sc_epochs (c : Config) : Z := ft_xe_epochs c + finetune_sc_epochs (optimizer c).
Definition total_epochs (c : Config) : Z := ft_sc_epochs c.

Definition boundaries (c : Config) : Z * Z * Z * Z :=
  (fr_xe_epochs c, fr_sc_epochs c, ft_xe_epochs c, ft_sc_epochs c).

(** ** Lines 45-47: initial values *)

Definition start_epoch : Z := 0.

Definition initial : Worker :=
  {| best_cider_val := 0; best_cider_test := 0; calls := [] |}.

(** Line 126: the epoch from which numbered checkpoints are kept. *)
Definition milestone_epoch : Z := 15.

(** Line 69: the phase label of an epoch. *)
Definition phase (epoch : Z) : string := "ft_xe".

Section Driver.

(** What [evaluate_metrics] returns to [main] for a split, an epoch and the
    [best_cider] it was passed.  The function is defined in the engine
    module; the driver only stores its result. *)
Variable evaluate_metrics : Split -> Z -> Q -> Q.

(** Line 28 *)
Definition rank_of (gpu : Z) (c : Config) : Z :=
  rank (exp c) * ngpus_per_node (exp c) + gpu.

(** Lines 27-60, as far as they call collaborators. *)
Definition setup (gpu : Z) (c : Config) (w : Worker) : Worker :=
  let rank := rank_of gpu c in
  let w := call (init_process_group rank (world_size (exp c))) w in
  let w := call (manual_seed (seed (exp c))) w in
  let w := call (set_device gpu) w in
  let w := call load_detector w in
  let w := call (build_optimizers "xe") w in
  if bool_decide (rank = 0 \/ rank = 1) then call summary_writer w else w.

(** Lines 83-113: evaluation on the two designated ranks. *)
Definition evaluate_step (rank epoch : Z) (w : Worker) : Worker :=
  let w :=
    if bool_decide (rank = 0) then
      let w := call (evaluate epoch valid (best_cider_val w) (phase epoch)) w in
      set_best_cider_val (evaluate_metrics valid epoch (best_cider_val w)) w
    else w in
  if bool_decide (rank = 1) then
    let w := call (evaluate epoch test (best_cider_test w) (phase epoch)) w in
    set_best_cider_test (evaluate_metrics test epoch (best_cider_test w)) w
  else w.

(** Lines 115-136: checkpoints on rank 0. *)
Definition checkpoint_step (rank epoch : Z) (w : Worker) : Worker :=
  if bool_decide (rank = 0) then
    let w := call (save {| ckpt_epoch := epoch; ckpt_scores := [];
                           ckpt_best_ciders := [0%Q; 0%Q];
                           ckpt_filename := checkpoint_name (phase epoch) |}) w in
    if bool_decide (epoch >= milestone_epoch) then
      call (save {| ckpt_epoch := epoch; ckpt_scores := [];
                    ckpt_best_ciders := [0%Q; 0%Q];
                    ckpt_filename := checkpoint_name (pretty epoch) |}) w
    else w
  else w.

(** Lines 69-138: one iteration of the epoch loop. *)
Definition epoch_body (rank : Z) (w : Worker) (epoch : Z) : Worker :=
  let w := call (train_xe epoch rank) w in
  let w := call (set_epoch epoch) w in
  let w := evaluate_step rank epoch w in
  let w := checkpoint_step rank epoch w in
  call barrier w.

(** Lines 68-138 *)
Definition epoch_loop (rank : Z) (c : Config) (w : Worker) : Worker :=
  foldl (epoch_body rank) w (range (Z.max 0 start_epoch) (total_epochs c)).

(** [main(gpu, config)].  The body has no [raise] of its own.  An exception
    raised inside a collaborator call is outside the model, which describes
    the runs whose calls return. *)
Definition main (gpu : Z) (c : Config) : Outcome :=
  let w := setup gpu c initial in
  Returned (epoch_loop (rank_of gpu c) c w).

(** [run_main]: [mp.spawn(main, nprocs=ngpus_per_node)] starts one worker
    per local device index [0 .. nprocs-1]. *)
Definition run_main (c : Config) : list Outcome :=
  (fun gpu => main gpu c) <$> range 0 (ngpus_per_node (exp c)).

End Driver.

(** ** The engine's side of the calls *)

Module CaptionEngine.

(** [a < b] on rationals, as a boolean. *)
Definition Qlt_bool (a b : Q) : bool := negb (Qle_bool b a).

(** Modelled from the spec: the best-score update inside [evaluate_metrics],
    which [train_vicap.py] imports from [engine.caption_engine] and does not
    define.  The
    score computed for the split is compared with the [best_cider] passed
    in, and replaces it only if strictly greater; a tie keeps the
    incumbent.  The returned value is what [main] stores. *)
Definition evaluate_metrics (score best_cider : Q) : Q :=
  if Qlt_bool best_cider score then score else best_cider.

(** Feeding the scores of successive epochs to one split. *)
Definition feed (best_cider : Q) (scores : list Q) : Q :=
  foldl (fun best score => evaluate_metrics score best) best_cider scores.

(** Modelled from the spec: [save_checkpoint], which [train_vicap.py]
    imports from [engine.caption_engine] and does not define, persists the
    record under [filename]; a record already stored under that name is
    replaced. *)
Definition save_checkpoint (r : CheckpointRecord)
    (disk : gmap string CheckpointRecord) : gmap string CheckpointRecord :=
  <[ckpt_filename r := r]> disk.

End CaptionEngine.

(** ** Observations on the calls of a worker *)

Definition worker_of (o : Outcome) : Worker :=
  match o with Returned w => w | Raised _ w => w end.

(** The epochs for which a training step was started, in order. *)
Definition trained_epochs (cs : list Call) : list Z :=
  omap (fun c => match c with
                 | train_xe e _ | train_sc e _ => Some e
                 | _ => None end) cs.

(** The records passed to [save_checkpoint], in order. *)
Definition saves (cs : list Call) : list CheckpointRecord :=
  omap (fun c => match c with save r => Some r | _ => None end) cs.

(** The checkpoint directory after the calls, starting from an empty one. *)
Definition disk_of (cs : list Call) : gmap string CheckpointRecord :=
  foldl (fun d r => CaptionEngine.save_checkpoint r d) ∅ (saves cs).

(** The files a restore was requested from. *)
Definition restores (cs : list Call) : list string :=
  omap (fun c => match c with load_checkpoint f => Some f | _ => None end) cs.

(** The evaluations, as (epoch, split) pairs, in order. *)
Definition evaluations (cs : list Call) : list (Z * Split) :=
  omap (fun c => match c with evaluate e s _ _ => Some (e, s) | _ => None end) cs.

(** The synchronisation skeleton of a worker: where each epoch starts, which
    split it evaluates, and where it waits for the others. *)
Inductive Mark := Mtrain (epoch : Z) | Meval (epoch : Z) (s : Split) | Mbarrier.

Definition marks (cs : list Call) : list Mark :=
  omap (fun c => match c with
                 | train_xe e _ | train_sc e _ => Some (Mtrain e)
                 | evaluate e s _ _ => Some (Meval e s)
                 | barrier => Some Mbarrier
                 | _ => None end) cs.

(** The splits a rank is responsible for (lines 83 and 99). *)
Definition splits_of_rank (r : Z) : list Split :=
  (if bool_decide (r = 0) then [valid] else []) ++
  (if bool_decide (r = 1) then [test] else []).

(** The training objective of a call. *)
Inductive Objective := likelihood | reward.

Definition objectives_at (epoch : Z) (cs : list Call) : list Objective :=
  omap (fun c => match c with
                 | train_xe e _ => if bool_decide (e = epoch) then Some likelihood else None
                 | train_sc e _ => if bool_decide (e = epoch) then Some reward else None
                 | _ => None end) cs.

(** The records written by rank 0 in one epoch (lines 116-136). *)
Definition rolling (epoch : Z) : CheckpointRecord :=
  {| ckpt_epoch := epoch; ckpt_scores := []; ckpt_best_ciders := [0%Q; 0%Q];
     ckpt_filename := checkpoint_name (phase epoch) |}.

Definition milestone (epoch : Z) : CheckpointRecord :=
  {| ckpt_epoch := epoch; ckpt_scores := []; ckpt_best_ciders := [0%Q; 0%Q];
     ckpt_filename := checkpoint_name (pretty epoch) |}.

(** ** The phase scheduler as the specification words it *)

Inductive PhaseLabel :=
| freeze_likelihood | freeze_reward | finetune_likelihood | finetune_reward.

(** The objective tag of a phase. *)
Definition tag (p : PhaseLabel) : Objective :=
  match p with
  | freeze_likelihood | finetune_likelihood => likelihood
  | freeze_reward | finetune_reward => reward
  end.

(** The label strings: [fr]/[ft] for freeze/finetune, [xe]/[sc] for
    cross-entropy (likelihood) and self-critical (reward). *)
Definition label (p : PhaseLabel) : string :=
  match p with
  | freeze_likelihood => "fr_xe"
  | freeze_reward => "fr_sc"
  | finetune_likelihood => "ft_xe"
  | finetune_reward => "ft_sc"
  end.

(** [resolve] of the specification: scan the boundaries in increasing order
    and return the first phase whose boundary the epoch is strictly below;
    none when [epoch >= b4]. *)
Definition resolve_spec (c : Config) (epoch : Z) : option PhaseLabel :=
  if bool_decide (epoch < fr_xe_epochs c) then Some freeze_likelihood
  else if bool_decide (epoch < fr_sc_epochs c) then Some freeze_reward
  else if bool_decide (epoch < ft_xe_epochs c) then Some finetune_likelihood
  else if bool_decide (epoch < ft_sc_epochs c) then Some finetune_reward
  else None.

(** ** Sample inputs *)

Definition config_of (node ngpus world a b c d : Z) : Config :=
  {| exp := {| rank := node; ngpus_per_node := ngpus; world_size := world; seed := 1234 |};
     optimizer := {| freezing_xe_epochs := a; freezing_sc_epochs := b;
                     finetune_xe_epochs := c; finetune_sc_epochs := d |} |}.

(** Phase lengths (10, 5, 5, 20) on one node with two devices. *)
Definition sample_config : Config := config_of 0 2 2 10 5 5 20.

(** An evaluation that always reports the same score. *)
Definition constant_score (q : Q) : Split -> Z -> Q -> Q :=
  fun _ _ best => CaptionEngine.evaluate_metrics q best.

(** The evaluation of the specification, for given scores per split and epoch. *)
Definition scored (score : Split -> Z -> Q) : Split -> Z -> Q -> Q :=
  fun s e best => CaptionEngine.evaluate_metrics (score s e) best.

(** ** The calls of one epoch *)

(** The calls of one iteration, given the two best scores on entry. *)
Definition body_calls (r epoch : Z) (bv bt : Q) : list Call :=
  [train_xe epoch r; set_epoch epoch]
  ++ (if bool_decide (r = 0) then [evaluate epoch valid bv (phase epoch)] else [])
  ++ (if bool_decide (r = 1) then [evaluate epoch test bt (phase epoch)] else [])
  ++ (save <$> (if bool_decide (r = 0)
                then rolling epoch ::
                     (if bool_decide (epoch >= milestone_epoch)
                      then [milestone epoch] else [])
                else []))
  ++ [barrier].

(** ** Further observations and sample inputs *)

(** The rank that lines 83 and 99 designate for a split. *)
Definition designated_rank (s : Split) : Z :=
  match s with valid => 0 | test => 1 end.

(** The records rank 0 passes to [save_checkpoint] in one epoch. *)
Definition epoch_saves (e : Z) : list CheckpointRecord :=
  rolling e :: (if bool_decide (e >= milestone_epoch) then [milestone e] else []).

(** The directory after the epochs [0 .. n-1] on rank 0. *)
Definition disk_after (n : Z) : gmap string CheckpointRecord :=
  foldl (fun d r => CaptionEngine.save_checkpoint r d) ∅ (seqZ 0 n ≫= epoch_saves).

(** The ranks a worker joins the process group with (line 29) and the
    devices it binds to (line 36). *)
Definition ranks_joined (cs : list Call) : list Z :=
  omap (fun c => match c with init_process_group r _ => Some r | _ => None end) cs.

Definition devices_bound (cs : list Call) : list Z :=
  omap (fun c => match c with set_device g => Some g | _ => None end) cs.

(** The same configuration on the node with index [node]. *)
Definition on_node (node : Z) (c : Config) : Config :=
  {| exp := {| rank := node; ngpus_per_node := ngpus_per_node (exp c);
               world_size := world_size (exp c); seed := seed (exp c) |};
     optimizer := optimizer c |}.

(** The ranks of the workers [run_main] spawns on one node, and on nodes
    [0 .. nodes-1]. *)
Definition node_ranks (c : Config) : list Z :=
  (fun gpu => rank_of gpu c) <$> range 0 (ngpus_per_node (exp c)).

Definition cluster_ranks (nodes : Z) (c : Config) : list Z :=
  range 0 nodes ≫= (fun node => node_ranks (on_node node c)).

(** All four per-phase epoch counts are zero or negative. *)
Definition all_nonpositive (c : Config) : Prop :=
  freezing_xe_epochs (optimizer c) <= 0 /\ freezing_sc_epochs (optimizer c) <= 0 /\
  finetune_xe_epochs (optimizer c) <= 0 /\ finetune_sc_epochs (optimizer c) <= 0.

(** All four phase lengths zero. *)
Definition zero_config : Config := config_of 0 2 2 0 0 0 0.

(** The [which] label passed to [evaluate_metrics], per epoch. *)
Definition labels_used (cs : list Call) : list (Z * string) :=
  omap (fun c => match c with evaluate e _ _ which => Some (e, which) | _ => None end) cs.

(** The scores of the example, fed epoch by epoch on rank 0. *)
Definition example_scores (s : Split) (e : Z) : Q :=
  if bool_decide (e = 0) then 1#2
  else if bool_decide (e = 1) then 3#10 else 7#10.

(** ** Further observations on a run *)

(** The tensorboard writers a worker opens (line 53). *)
Definition writers (cs : list Call) : list unit :=
  omap (fun c => match c with summary_writer => Some tt | _ => None end) cs.

(** The barriers a worker waits at (line 138). *)
Definition barriers (cs : list Call) : list unit :=
  omap (fun c => match c with barrier => Some tt | _ => None end) cs.

(** The seeds a worker sets and the world sizes it joins with. *)
Definition seeds (cs : list Call) : list Z :=
  omap (fun c => match c with manual_seed sd => Some sd | _ => None end) cs.

Definition world_sizes (cs : list Call) : list Z :=
  omap (fun c => match c with init_process_group _ ws => Some ws | _ => None end) cs.

(** The [best_cider] argument of each evaluation, with its epoch and split. *)
Definition best_passed (cs : list Call) : list (Z * Split * Q) :=
  omap (fun c => match c with evaluate e s b _ => Some (e, s, b) | _ => None end) cs.

(** What the chain of evaluations of split [s] has returned when epoch [e]
    starts: 0.0 threaded through the results of the epochs [0 .. e-1]. *)
Definition tracked (evaluate_metrics : Split -> Z -> Q -> Q) (s : Split) (e : Z) : Q :=
  foldl (fun best epoch => evaluate_metrics s epoch best) 0%Q (seqZ 0 e).

(** The order of the calls of an epoch, without the values passed. *)
Inductive Step :=
| Strain (epoch rank : Z)
| Sset_epoch (epoch : Z)
| Sevaluate (epoch : Z) (s : Split)
| Ssave (epoch : Z) (filename : string)
| Sbarrier.

Definition steps (cs : list Call) : list Step :=
  omap (fun c => match c with
                 | train_xe e r | train_sc e r => Some (Strain e r)
                 | set_epoch e => Some (Sset_epoch e)
                 | evaluate e s _ _ => Some (Sevaluate e s)
                 | save r => Some (Ssave (ckpt_epoch r) (ckpt_filename r))
                 | barrier => Some Sbarrier
                 | _ => None end) cs.

(** The steps of epoch [e] on a worker of rank [r] (lines 69-138). *)
Definition epoch_steps (r e : Z) : list Step :=
  [Strain e r; Sset_epoch e]
  ++ (Sevaluate e <$> splits_of_rank r)
  ++ (if bool_decide (r = 0)
      then (fun rec => Ssave (ckpt_epoch rec) (ckpt_filename rec)) <$> epoch_saves e
      else [])
  ++ [Sbarrier].

(** The number of checkpoint files rank 0 leaves after [n] epochs: the
    rolling file, once an epoch has run, and one file per epoch from
    [milestone_epoch] on. *)
Definition files_after (n : Z) : nat :=
  (if bool_decide (0 < n) then 1%nat else 0%nat) + Z.to_nat (n - milestone_epoch).

(** * Properties *)

(** ** The calls of one epoch and of the loop *)

Section Loop.

Variable evaluate_metrics : Split -> Z -> Q -> Q.

Lemma calls_epoch_body r w epoch :
  calls (epoch_body evaluate_metrics r w epoch)
  = calls w ++ body_calls r epoch (best_cider_val w) (best_cider_test w).
Proof.
  unfold epoch_body, evaluate_step, checkpoint_step, body_calls, rolling, milestone.
  repeat case_bool_decide; simpl; rewrite <- ?app_assoc; reflexivity.
Qed.

Lemma best_cider_val_epoch_body r w epoch :
  best_cider_val (epoch_body evaluate_metrics r w epoch)
  = if bool_decide (r = 0)
    then evaluate_metrics valid epoch (best_cider_val w)
    else best_cider_val w.
Proof.
  unfold epoch_body, evaluate_step, checkpoint_step.
  repeat case_bool_decide; reflexivity.
Qed.

Lemma best_cider_test_epoch_body r w epoch :
  best_cider_test (epoch_body evaluate_metrics r w epoch)
  = if bool_decide (r = 1)
    then evaluate_metrics test epoch (best_cider_test w)
    else best_cider_test w.
Proof.
  unfold epoch_body, evaluate_step, checkpoint_step.
  repeat case_bool_decide; reflexivity.
Qed.

(** An observation that does not look at the best scores sees, over the
    whole loop, the concatenation of what it sees in each epoch. *)
Lemma observe_loop {A} (p : Call -> option A) (g : Z -> list A) r :
  (forall epoch bv bt, omap p (body_calls r epoch bv bt) = g epoch) ->
  forall l w,
    omap p (calls (foldl (epoch_body evaluate_metrics r) w l))
    = omap p (calls w) ++ (l ≫= g).
Proof.
  intros Hg l. induction l as [|e l IH]; intros w; simpl.
  - by rewrite app_nil_r.
  - rewrite IH, calls_epoch_body, omap_app, Hg, <- app_assoc. reflexivity.
Qed.

Lemma best_cider_val_loop l : forall w,
  best_cider_val (foldl (epoch_body evaluate_metrics 0) w l)
  = foldl (fun best epoch => evaluate_metrics valid epoch best) (best_cider_val w) l.
Proof.
  induction l as [|e l IH]; intros w; simpl; [done|].
  rewrite IH, best_cider_val_epoch_body. reflexivity.
Qed.

Lemma best_cider_test_loop l : forall w,
  best_cider_test (foldl (epoch_body evaluate_metrics 1) w l)
  = foldl (fun best epoch => evaluate_metrics test epoch best) (best_cider_test w) l.
Proof.
  induction l as [|e l IH]; intros w; simpl; [done|].
  rewrite IH, best_cider_test_epoch_body. reflexivity.
Qed.

(** The calls of the set-up: none of them trains, evaluates, saves,
    restores or waits. *)
Lemma calls_setup gpu c :
  calls (setup gpu c initial)
  = [init_process_group (rank_of gpu c) (world_size (exp c));
     manual_seed (seed (exp c)); set_device gpu; load_detector;
     build_optimizers "xe"]
    ++ (if bool_decide (rank_of gpu c = 0 \/ rank_of gpu c = 1)
        then [summary_writer] else []).
Proof. unfold setup. case_bool_decide; reflexivity. Qed.

Lemma best_setup gpu c :
  best_cider_val (setup gpu c initial) = 0%Q /\
  best_cider_test (setup gpu c initial) = 0%Q.
Proof. unfold setup. case_bool_decide; split; reflexivity. Qed.

Lemma main_returns gpu c :
  main evaluate_metrics gpu c
  = Returned (foldl (epoch_body evaluate_metrics (rank_of gpu c))
                    (setup gpu c initial) (range 0 (total_epochs c))).
Proof. reflexivity. Qed.

(** The observations of a whole run of [main]. *)
Lemma observe_main {A} (p : Call -> option A) (g : Z -> list A) gpu c :
  (forall epoch bv bt, omap p (body_calls (rank_of gpu c) epoch bv bt) = g epoch) ->
  omap p (calls (worker_of (main evaluate_metrics gpu c)))
  = omap p (calls (setup gpu c initial)) ++ (range 0 (total_epochs c) ≫= g).
Proof. intros Hg. rewrite main_returns. simpl. by apply observe_loop. Qed.

End Loop.

(** ** What a run of [main] trains, evaluates, saves and restores *)

Section Observations.

Variable evaluate_metrics : Split -> Z -> Q -> Q.
Variables (gpu : Z) (c : Config).

Let w := worker_of (main evaluate_metrics gpu c).
Let r := rank_of gpu c.

Lemma bind_singleton (l : list Z) : l ≫= (fun e => [e]) = l.
Proof. induction l as [|e l IH]; csimpl; [done|]. by rewrite IH. Qed.

Lemma trained_epochs_main :
  trained_epochs (calls w) = range 0 (total_epochs c).
Proof.
  unfold trained_epochs, w.
  rewrite (observe_main _ _ (fun e => [e])).
  - rewrite calls_setup, bind_singleton. by case_bool_decide.
  - intros. unfold body_calls. by repeat case_bool_decide.
Qed.

Lemma restores_main : restores (calls w) = [].
Proof.
  unfold restores, w.
  rewrite (observe_main _ _ (fun _ => [])).
  - rewrite calls_setup. case_bool_decide; simpl;
      by induction (range 0 (total_epochs c)).
  - intros. unfold body_calls. by repeat case_bool_decide.
Qed.

Lemma marks_main :
  marks (calls w)
  = range 0 (total_epochs c) ≫=
      (fun e => Mtrain e :: (Meval e <$> splits_of_rank r) ++ [Mbarrier]).
Proof.
  unfold marks, w.
  rewrite (observe_main _ _
    (fun e => Mtrain e :: (Meval e <$> splits_of_rank r) ++ [Mbarrier])).
  - rewrite calls_setup. by case_bool_decide.
  - intros. unfold body_calls, splits_of_rank. fold r.
    by repeat case_bool_decide.
Qed.

Lemma evaluations_main :
  evaluations (calls w)
  = range 0 (total_epochs c) ≫= (fun e => pair e <$> splits_of_rank r).
Proof.
  unfold evaluations, w.
  rewrite (observe_main _ _ (fun e => pair e <$> splits_of_rank r)).
  - rewrite calls_setup. by case_bool_decide.
  - intros. unfold body_calls, splits_of_rank. fold r.
    by repeat case_bool_decide.
Qed.

Lemma saves_main :
  saves (calls w)
  = range 0 (total_epochs c) ≫=
      (fun e => if bool_decide (r = 0)
                then rolling e ::
                     (if bool_decide (e >= milestone_epoch) then [milestone e] else [])
                else []).
Proof.
  unfold saves, w.
  rewrite (observe_main _ _
    (fun e => if bool_decide (r = 0)
              then rolling e ::
                   (if bool_decide (e >= milestone_epoch) then [milestone e] else [])
              else [])).
  - rewrite calls_setup. by case_bool_decide.
  - intros. unfold body_calls. fold r.
    by repeat case_bool_decide.
Qed.

Lemma objectives_main epoch :
  objectives_at epoch (calls w)
  = range 0 (total_epochs c) ≫=
      (fun e => if bool_decide (e = epoch) then [likelihood] else []).
Proof.
  unfold objectives_at, w.
  rewrite (observe_main _ _
    (fun e => if bool_decide (e = epoch) then [likelihood] else [])).
  - rewrite calls_setup. by case_bool_decide.
  - intros. unfold body_calls.
    repeat case_bool_decide; simpl; repeat case_bool_decide; done.
Qed.

End Observations.

Lemma elem_of_splits_of_rank s r :
  s ∈ splits_of_rank r <-> r = designated_rank s.
Proof.
  unfold splits_of_rank.
  repeat case_bool_decide; destruct s; simpl; set_solver by lia.
Qed.

Lemma elem_of_range e lo hi : e ∈ range lo hi <-> lo <= e < hi.
Proof. unfold range. rewrite elem_of_seqZ. lia. Qed.

(** ** The epoch loop *)

(** C4.  The loop of [main] runs the training step for exactly the epochs
    [start_epoch, ..., b4 - 1], once each and in increasing order, where [b4]
    is the sum of the four per-phase counts, and then [main] returns; an
    epoch index [>= b4] is never run.  This holds for every configuration. *)
Theorem epoch_loop_executes_range (evaluate_metrics : Split -> Z -> Q -> Q)
    (gpu : Z) (c : Config) :
  exists w,
    main evaluate_metrics gpu c = Returned w /\
    total_epochs c
      = freezing_xe_epochs (optimizer c) + freezing_sc_epochs (optimizer c)
        + finetune_xe_epochs (optimizer c) + finetune_sc_epochs (optimizer c) /\
    trained_epochs (calls w) = seqZ start_epoch (total_epochs c - start_epoch) /\
    NoDup (trained_epochs (calls w)) /\
    forall e, e ∈ trained_epochs (calls w) <-> start_epoch <= e < total_epochs c.
Proof.
  eexists. split; [apply main_returns|].
  pose proof (trained_epochs_main evaluate_metrics gpu c) as Heq.
  rewrite main_returns in Heq. simpl in Heq. rewrite Heq.
  split; [reflexivity|]. split; [reflexivity|].
  split; [apply NoDup_seqZ|].
  intros e. apply elem_of_range.
Qed.

(** ** Fresh start *)

(** C10.  Every call of [main] enters the epoch loop at epoch 0 with both
    best scores equal to 0.0, and the worker never asks for a checkpoint to
    be restored: neither before the loop nor in any epoch. *)
Theorem main_starts_fresh (evaluate_metrics : Split -> Z -> Q -> Q)
    (gpu : Z) (c : Config) :
  exists w0,
    main evaluate_metrics gpu c
      = Returned (foldl (epoch_body evaluate_metrics (rank_of gpu c)) w0
                        (seqZ 0 (total_epochs c))) /\
    start_epoch = 0 /\
    best_cider_val w0 = 0%Q /\
    best_cider_test w0 = 0%Q /\
    restores (calls w0) = [] /\
    restores (calls (worker_of (main evaluate_metrics gpu c))) = [] /\
    (forall f, load_checkpoint f ∉ calls (worker_of (main evaluate_metrics gpu c))) /\
    head (trained_epochs (calls (worker_of (main evaluate_metrics gpu c))))
      = (if bool_decide (0 < total_epochs c) then Some 0 else None).
Proof.
  exists (setup gpu c initial).
  split; [rewrite main_returns; unfold range; by rewrite Z.sub_0_r|].
  split; [reflexivity|].
  destruct (best_setup gpu c) as [-> ->].
  split; [reflexivity|]. split; [reflexivity|].
  split; [rewrite calls_setup; by case_bool_decide|].
  pose proof (restores_main evaluate_metrics gpu c) as Hr.
  split; [exact Hr|]. split.
  - intros f Hin.
    assert (f ∈ restores (calls (worker_of (main evaluate_metrics gpu c)))) as Hf.
    { unfold restores. apply list_elem_of_omap. exists (load_checkpoint f). done. }
    rewrite Hr in Hf. by apply elem_of_nil in Hf.
  - rewrite trained_epochs_main. unfold range. rewrite Z.sub_0_r.
    case_bool_decide.
    + by rewrite seqZ_cons.
    + by rewrite seqZ_nil by lia.
Qed.

(** ** Evaluation by rank *)

(** C5.  The assignment of splits to ranks is fixed and disjoint: in every
    epoch of the run, a worker evaluates a split exactly when its rank is the
    one designated for that split (0 for [valid], 1 for [test], two different
    ranks), so two workers that evaluate the same split in the same epoch have
    the same rank and no worker evaluates a split twice.  A worker with no
    split evaluates nothing.  Every worker, with or without a split, ends each
    epoch at the barrier: its epoch is the training step, its evaluations,
    then the barrier. *)
Theorem evaluation_assignment (evaluate_metrics : Split -> Z -> Q -> Q)
    (gpu : Z) (c : Config) :
  let w := worker_of (main evaluate_metrics gpu c) in
  let r := rank_of gpu c in
  designated_rank valid <> designated_rank test /\
  (forall e s, (e, s) ∈ evaluations (calls w)
               <-> (0 <= e < total_epochs c /\ r = designated_rank s)) /\
  NoDup (evaluations (calls w)) /\
  (forall gpu' c' e s,
      (e, s) ∈ evaluations (calls w) ->
      (e, s) ∈ evaluations (calls (worker_of (main evaluate_metrics gpu' c'))) ->
      rank_of gpu' c' = r) /\
  (r <> 0 -> r <> 1 -> evaluations (calls w) = []) /\
  marks (calls w)
    = seqZ 0 (total_epochs c) ≫=
        (fun e => Mtrain e :: (Meval e <$> splits_of_rank r) ++ [Mbarrier]) /\
  (r <> 0 -> r <> 1 ->
   marks (calls w) = seqZ 0 (total_epochs c) ≫= (fun e => [Mtrain e; Mbarrier])).
Proof.
  intros w r.
  assert (forall g k e s,
    (e, s) ∈ evaluations (calls (worker_of (main evaluate_metrics g k)))
    <-> (0 <= e < total_epochs k /\ rank_of g k = designated_rank s)) as Hin.
  { intros g k e s. rewrite evaluations_main, list_elem_of_bind. split.
    - intros (e' & Hs & He). apply list_elem_of_fmap in Hs as (s' & [= -> ->] & Hs).
      apply elem_of_range in He. by apply elem_of_splits_of_rank in Hs.
    - intros [He Hr]. exists e. split; [|by apply elem_of_range].
      apply list_elem_of_fmap. exists s. split; [done|].
      by apply elem_of_splits_of_rank. }
  split; [done|]. split; [apply Hin|]. split.
  { subst w. rewrite evaluations_main. fold r.
    apply NoDup_bind.
    - intros e1 e2 [e s] _ _ H1 H2.
      apply list_elem_of_fmap in H1 as (? & [= -> ->] & _).
      by apply list_elem_of_fmap in H2 as (? & [= -> _] & _).
    - intros e _. apply NoDup_fmap_2; [by intros ?? [=]|].
      unfold splits_of_rank.
      repeat case_bool_decide; simpl; repeat constructor; set_solver.
    - apply NoDup_seqZ. }
  split.
  { intros g k e s H1 H2. apply Hin in H1 as [_ H1]. apply Hin in H2 as [_ H2].
    subst r. congruence. }
  assert (r <> 0 -> r <> 1 -> splits_of_rank r = []) as Hnone.
  { intros H0 H1. unfold splits_of_rank.
    by rewrite !bool_decide_eq_false_2. }
  split.
  { intros H0 H1. subst w. rewrite evaluations_main. fold r. rewrite Hnone by done.
    unfold range. induction (seqZ _ _); csimpl; done. }
  assert (marks (calls w)
    = seqZ 0 (total_epochs c) ≫=
        (fun e => Mtrain e :: (Meval e <$> splits_of_rank r) ++ [Mbarrier])) as Hm.
  { subst w. rewrite marks_main. unfold range. by rewrite Z.sub_0_r. }
  split; [exact Hm|].
  intros H0 H1. rewrite Hm, Hnone by done. reflexivity.
Qed.

(** The theorem on a worker of rank 2, which has no split. *)
Lemma evaluation_assignment_witness :
  rank_of 2 (config_of 0 4 4 1 1 0 0) = 2 /\
  marks (calls (worker_of (main (constant_score (1#2)) 2 (config_of 0 4 4 1 1 0 0))))
  = [Mtrain 0; Mbarrier; Mtrain 1; Mbarrier].
Proof.
  split; [reflexivity|].
  apply (proj2 (proj2 (proj2 (proj2 (proj2 (proj2
    (evaluation_assignment (constant_score (1#2)) 2 (config_of 0 4 4 1 1 0 0)))))))).
  - discriminate.
  - discriminate.
Defined.

(** ** Checkpoint file names *)

Lemma string_length_app (s t : string) :
  String.length (s +:+ t) = (String.length s + String.length t)%nat.
Proof. induction s as [|a s IH]; simpl; [done|]. by rewrite <- IH. Qed.

Lemma string_app_inj_r (t s1 s2 : string) : s1 +:+ t = s2 +:+ t -> s1 = s2.
Proof.
  revert s2. induction s1 as [|a s1 IH]; intros [|b s2] Heq.
  - done.
  - apply (f_equal String.length) in Heq.
    rewrite !string_length_app in Heq. simpl in Heq. lia.
  - apply (f_equal String.length) in Heq.
    rewrite !string_length_app in Heq. simpl in Heq. lia.
  - change (String a (s1 +:+ t) = String b (s2 +:+ t)) in Heq.
    injection Heq as -> Heq. f_equal. by apply IH.
Qed.

Lemma checkpoint_name_inj (x y : string) :
  checkpoint_name x = checkpoint_name y -> x = y.
Proof.
  unfold checkpoint_name. intros Heq.
  apply (inj (String.app "checkpoint_")) in Heq.
  by apply string_app_inj_r in Heq.
Qed.

(** A decimal numeral does not begin with the letter [f]. *)
Lemma pretty_N_go_ne_f (x : N) (s s' : string) :
  s <> String "f"%char s' -> pretty_N_go x s <> String "f"%char s'.
Proof.
  revert s. induction (N.lt_wf_0 x) as [x _ IH]; intros s Hs.
  assert (x = 0 \/ 0 < x)%N as [->|Hx] by lia.
  - by rewrite pretty_N_go_0.
  - rewrite pretty_N_go_step by done. apply IH.
    { by apply N.div_lt. }
    unfold pretty_N_char. by repeat case_match.
Qed.

Lemma pretty_Z_ne_phase (e e' : Z) : pretty e <> phase e'.
Proof.
  unfold phase, pretty, pretty_Z. destruct e as [|p|p]; [done| |done].
  unfold pretty, pretty_positive, pretty, pretty_N.
  case_decide; [done|]. by apply pretty_N_go_ne_f.
Qed.

Lemma milestone_name_ne_rolling (e e' : Z) :
  ckpt_filename (milestone e) <> ckpt_filename (rolling e').
Proof. simpl. intros Heq%checkpoint_name_inj. by apply pretty_Z_ne_phase in Heq. Qed.

Lemma milestone_name_inj (e e' : Z) :
  ckpt_filename (milestone e) = ckpt_filename (milestone e') -> e = e'.
Proof. simpl. intros Heq%checkpoint_name_inj. by apply (inj pretty) in Heq. Qed.

Lemma disk_after_S (k : nat) :
  disk_after (Z.of_nat (S k))
  = foldl (fun d r => CaptionEngine.save_checkpoint r d)
          (disk_after (Z.of_nat k)) (epoch_saves (Z.of_nat k)).
Proof.
  unfold disk_after. rewrite seqZ_S, bind_app, foldl_app. csimpl.
  by rewrite app_nil_r.
Qed.

Lemma lookup_epoch_saves (d : gmap string CheckpointRecord) (k : Z) (name : string) :
  foldl (fun d r => CaptionEngine.save_checkpoint r d) d (epoch_saves k) !! name
  = if bool_decide (k >= milestone_epoch /\ name = ckpt_filename (milestone k))
    then Some (milestone k)
    else if bool_decide (name = ckpt_filename (rolling k))
         then Some (rolling k)
         else d !! name.
Proof.
  unfold epoch_saves, CaptionEngine.save_checkpoint.
  destruct (decide (k >= milestone_epoch)) as [Hk|Hk].
  - rewrite (bool_decide_eq_true_2 _ Hk). cbn [foldl].
    rewrite !lookup_insert. repeat case_decide; repeat case_bool_decide; naive_solver.
  - rewrite (bool_decide_eq_false_2 _ Hk). cbn [foldl].
    rewrite !lookup_insert. repeat case_decide; repeat case_bool_decide; naive_solver.
Qed.

Lemma disk_after_rolling (k : nat) :
  disk_after (Z.of_nat (S k)) !! ckpt_filename (rolling 0)
  = Some (rolling (Z.of_nat k)).
Proof.
  rewrite disk_after_S, lookup_epoch_saves.
  rewrite bool_decide_eq_false_2.
  - by rewrite bool_decide_eq_true_2.
  - intros [_ Heq]. symmetry in Heq. by apply milestone_name_ne_rolling in Heq.
Qed.

Lemma disk_after_milestone (k : nat) (e : Z) :
  disk_after (Z.of_nat k) !! ckpt_filename (milestone e)
  = if bool_decide (milestone_epoch <= e < Z.of_nat k)
    then Some (milestone e) else None.
Proof.
  pose proof (eq_refl : milestone_epoch = 15) as Hm.
  induction k as [|k IH].
  - rewrite bool_decide_eq_false_2 by lia. done.
  - rewrite disk_after_S, lookup_epoch_saves, IH.
    rewrite (bool_decide_eq_false_2 (_ = ckpt_filename (rolling _)))
      by apply milestone_name_ne_rolling.
    destruct (decide (Z.of_nat k >= milestone_epoch /\
                      ckpt_filename (milestone e)
                      = ckpt_filename (milestone (Z.of_nat k)))) as [[Hk Heq]|Hn].
    + rewrite (bool_decide_eq_true_2 _ (conj Hk Heq)).
      apply milestone_name_inj in Heq as ->.
      by rewrite bool_decide_eq_true_2 by lia.
    + rewrite (bool_decide_eq_false_2 _ Hn).
      assert ((milestone_epoch <= e < Z.of_nat k)
              <-> (milestone_epoch <= e < Z.of_nat (S k))) as Hiff.
      { split; [lia|]. intros [Hlo Hhi].
        destruct (decide (e = Z.of_nat k)) as [->|]; [|lia].
        destruct Hn. split; [lia|done]. }
      by rewrite (bool_decide_ext _ _ Hiff).
Qed.

Lemma disk_after_to_nat (n : Z) : disk_after n = disk_after (Z.of_nat (Z.to_nat n)).
Proof. unfold disk_after, seqZ. by rewrite Nat2Z.id. Qed.

Lemma bind_ext_nil {A} (l : list Z) : l ≫= (fun _ => @nil A) = [].
Proof. induction l; csimpl; done. Qed.

(** ** Checkpoints *)

(** C7, as stated, fails in two places.  The rolling name is not scoped by
    the phase of the epoch: with phase lengths (10, 5, 5, 20) epoch 9 lies in
    the freeze-likelihood phase, yet its rolling record is saved as
    [checkpoint_ft_xe.pth] and no file carries the label of that phase.  The
    threshold is not a configured value: with a single phase of 30 epochs
    every boundary is 30, yet the first numbered file is that of epoch 15. *)
Lemma rolling_name_and_threshold_fixed :
  resolve_spec sample_config 9 = Some freeze_likelihood /\
  saves (calls (worker_of (main (constant_score (1#2)) 0 sample_config))) !! 9%nat
    = Some {| ckpt_epoch := 9; ckpt_scores := []; ckpt_best_ciders := [0%Q; 0%Q];
              ckpt_filename := "checkpoint_ft_xe.pth" |} /\
  disk_of (calls (worker_of (main (constant_score (1#2)) 0 sample_config)))
    !! ("checkpoint_" +:+ label freeze_likelihood +:+ ".pth") = None /\
  boundaries (config_of 0 2 2 30 0 0 0) = (30, 30, 30, 30) /\
  disk_of (calls (worker_of (main (constant_score (1#2)) 0 (config_of 0 2 2 30 0 0 0))))
    !! "checkpoint_14.pth" = None /\
  disk_of (calls (worker_of (main (constant_score (1#2)) 0 (config_of 0 2 2 30 0 0 0))))
    !! "checkpoint_15.pth"
    = Some {| ckpt_epoch := 15; ckpt_scores := []; ckpt_best_ciders := [0%Q; 0%Q];
              ckpt_filename := "checkpoint_15.pth" |}.
Proof.
  split; [reflexivity|]. split; [by vm_compute|]. split; [by vm_compute|].
  split; [reflexivity|]. split; by vm_compute.
Qed.

(** C7, amended.  Only rank 0 calls [save_checkpoint].  In every epoch it
    writes the rolling record under [checkpoint_<label>.pth], where the label
    is the phase label the loop has set for the epoch, and from epoch 15 on,
    a number fixed in the code for every configuration, also a record under
    [checkpoint_<epoch>.pth].  At the end of a run of [T] epochs the rolling
    file of the last epoch's label holds the record of that epoch, the
    rolling record of an epoch is gone once a later epoch with the same label
    has run, every numbered file of an epoch in [15, T) still holds the record
    written in that epoch, and no numbered file exists for an earlier epoch. *)
Theorem checkpoints_by_rank_zero (evaluate_metrics : Split -> Z -> Q -> Q)
    (gpu : Z) (c : Config) :
  let w := worker_of (main evaluate_metrics gpu c) in
  let r := rank_of gpu c in
  let d := disk_of (calls w) in
  milestone_epoch = 15 /\
  (r <> 0 -> saves (calls w) = [] /\ d = ∅) /\
  (r = 0 ->
     saves (calls w)
       = seqZ 0 (total_epochs c) ≫=
           (fun e => rolling e ::
                     (if bool_decide (e >= milestone_epoch) then [milestone e] else [])) /\
     (forall e, ckpt_epoch (rolling e) = e /\
                ckpt_filename (rolling e) = "checkpoint_" +:+ phase e +:+ ".pth") /\
     (forall e, ckpt_epoch (milestone e) = e /\
                ckpt_filename (milestone e) = "checkpoint_" +:+ pretty e +:+ ".pth") /\
     (0 < total_epochs c ->
        d !! ("checkpoint_" +:+ phase (total_epochs c - 1) +:+ ".pth")
        = Some (rolling (total_epochs c - 1))) /\
     (forall e e', 0 <= e < e' -> e' < total_epochs c -> phase e = phase e' ->
        d !! ("checkpoint_" +:+ phase e +:+ ".pth") <> Some (rolling e)) /\
     (forall e, milestone_epoch <= e < total_epochs c ->
        d !! ("checkpoint_" +:+ pretty e +:+ ".pth") = Some (milestone e)) /\
     (forall e, e < milestone_epoch ->
        d !! ("checkpoint_" +:+ pretty e +:+ ".pth") = None)).
Proof.
  intros w r d. subst d. unfold disk_of. subst w. rewrite saves_main. fold r.
  unfold range. rewrite Z.sub_0_r. split; [reflexivity|]. split.
  - intros Hr. rewrite bool_decide_eq_false_2 by done.
    by rewrite bind_ext_nil.
  - intros Hr. rewrite bool_decide_eq_true_2 by done.
    split; [done|]. split; [done|]. split; [done|].
    change (foldl _ ∅ _) with (disk_after (total_epochs c)).
    rewrite disk_after_to_nat.
    assert (0 < total_epochs c ->
            disk_after (Z.of_nat (Z.to_nat (total_epochs c)))
              !! ckpt_filename (rolling 0)
            = Some (rolling (total_epochs c - 1))) as Hlast.
    { intros HT. destruct (Z.to_nat (total_epochs c)) as [|k] eqn:Hk; [lia|].
      replace (total_epochs c - 1) with (Z.of_nat k) by lia.
      apply disk_after_rolling. }
    split; [exact Hlast|]. split; [|split].
    + intros e e' He He' _.
      change ("checkpoint_" +:+ phase e +:+ ".pth") with (ckpt_filename (rolling 0)).
      rewrite Hlast by lia. intros [= Heq]. lia.
    + intros e He.
      change ("checkpoint_" +:+ pretty e +:+ ".pth") with (ckpt_filename (milestone e)).
      rewrite disk_after_milestone. by rewrite bool_decide_eq_true_2 by lia.
    + intros e He.
      change ("checkpoint_" +:+ pretty e +:+ ".pth") with (ckpt_filename (milestone e)).
      rewrite disk_after_milestone. by rewrite bool_decide_eq_false_2 by lia.
Qed.

(** The theorem at the sample configuration, on rank 0. *)
Lemma checkpoints_by_rank_zero_witness :
  rank_of 0 sample_config = 0 /\
  disk_of (calls (worker_of (main (constant_score (1#2)) 0 sample_config)))
    !! "checkpoint_25.pth" = Some (milestone 25).
Proof.
  split; [reflexivity|].
  apply (proj1 (proj2 (proj2 (proj2 (proj2 (proj2
    (proj2 (proj2 (checkpoints_by_rank_zero (constant_score (1#2)) 0 sample_config))
           eq_refl)))))) 25).
  split; [discriminate|reflexivity].
Defined.

(** ** The best-score table *)

Section BestScore.

Import CaptionEngine.

Lemma Qlt_bool_spec (a b : Q) : Qlt_bool a b = true <-> (a < b)%Q.
Proof.
  unfold Qlt_bool. rewrite negb_true_iff. split.
  - intros Hle. apply Qnot_le_lt. intros Hba%Qle_bool_iff. congruence.
  - intros Hlt. destruct (Qle_bool b a) eqn:Hle; [|done].
    apply Qle_bool_iff in Hle. by apply Qlt_not_le in Hlt.
Qed.

Lemma evaluate_metrics_gt (best score : Q) :
  (best < score)%Q -> evaluate_metrics score best = score.
Proof. intros H%Qlt_bool_spec. unfold evaluate_metrics. by rewrite H. Qed.

Lemma evaluate_metrics_le (best score : Q) :
  (score <= best)%Q -> evaluate_metrics score best = best.
Proof.
  intros Hle. unfold evaluate_metrics.
  destruct (Qlt_bool best score) eqn:Hlt; [|done].
  apply Qlt_bool_spec in Hlt. by apply Qlt_not_le in Hlt.
Qed.

Lemma evaluate_metrics_cases (best score : Q) :
  ((best < score)%Q /\ evaluate_metrics score best = score) \/
  ((score <= best)%Q /\ evaluate_metrics score best = best).
Proof.
  destruct (Qlt_le_dec best score) as [Hlt|Hle].
  - left. split; [done|]. by apply evaluate_metrics_gt.
  - right. split; [done|]. by apply evaluate_metrics_le.
Qed.

Lemma evaluate_metrics_ge_best (best score : Q) :
  (best <= evaluate_metrics score best)%Q.
Proof.
  destruct (evaluate_metrics_cases best score) as [[H ->]|[H ->]].
  - by apply Qlt_le_weak.
  - apply Qle_refl.
Qed.

Lemma evaluate_metrics_ge_score (best score : Q) :
  (score <= evaluate_metrics score best)%Q.
Proof.
  destruct (evaluate_metrics_cases best score) as [[H ->]|[H ->]].
  - apply Qle_refl.
  - done.
Qed.

Lemma feed_cons (best score : Q) (scores : list Q) :
  feed best (score :: scores) = feed (evaluate_metrics score best) scores.
Proof. reflexivity. Qed.

Lemma feed_app (best : Q) (s1 s2 : list Q) :
  feed best (s1 ++ s2) = feed (feed best s1) s2.
Proof. unfold feed. apply foldl_app. Qed.

Lemma feed_ge (scores : list Q) : forall best, (best <= feed best scores)%Q.
Proof.
  induction scores as [|s l IH]; intros best.
  - apply Qle_refl.
  - rewrite feed_cons. eapply Qle_trans; [apply evaluate_metrics_ge_best|apply IH].
Qed.

Lemma feed_elem_of (scores : list Q) : forall best, feed best scores ∈ best :: scores.
Proof.
  induction scores as [|s l IH]; intros best.
  - apply list_elem_of_here.
  - rewrite feed_cons. specialize (IH (evaluate_metrics s best)).
    destruct (evaluate_metrics_cases best s) as [[_ Heq]|[_ Heq]];
      rewrite Heq in IH |- *; set_solver.
Qed.

Lemma feed_upper_bound (scores : list Q) :
  forall best x, x ∈ best :: scores -> (x <= feed best scores)%Q.
Proof.
  induction scores as [|s l IH]; intros best x Hx.
  - apply list_elem_of_singleton in Hx as ->. apply Qle_refl.
  - rewrite feed_cons.
    apply elem_of_cons in Hx as [->|Hx].
    + eapply Qle_trans; [apply evaluate_metrics_ge_best|apply feed_ge].
    + apply elem_of_cons in Hx as [->|Hx].
      * eapply Qle_trans; [apply evaluate_metrics_ge_score|apply feed_ge].
      * apply IH. by apply list_elem_of_further.
Qed.

(** The value [main] keeps for a split is the scores of the epochs fed,
    in order, to the update. *)
Lemma foldl_scored (score : Z -> Q) (l : list Z) : forall best,
  foldl (fun b e => evaluate_metrics (score e) b) best l = feed best (score <$> l).
Proof. induction l as [|e l IH]; intros best; [done|]. csimpl. by rewrite IH. Qed.

End BestScore.

(** C6.  The update keeps the larger of the incumbent and the new score and
    replaces the incumbent only when the new score is strictly greater: a tie
    or a lower score leaves it as it is.  Hence the best value of a split
    never decreases from one epoch to the next, and after any sequence of
    scores it is the maximum of the initial value and the scores fed so far;
    scores 0.5, 0.3, 0.7 from the initial 0.0 give 0.7.  The values [main]
    keeps for [valid] (rank 0) and [test] (rank 1) are this maximum over the
    epochs run. *)
Theorem best_score_is_prefix_max :
  (forall best score, (best < score)%Q ->
     CaptionEngine.evaluate_metrics score best = score) /\
  (forall best score, (score <= best)%Q ->
     CaptionEngine.evaluate_metrics score best = best) /\
  (forall best s1 s2,
     (CaptionEngine.feed best s1 <= CaptionEngine.feed best (s1 ++ s2))%Q) /\
  (forall best scores, CaptionEngine.feed best scores ∈ best :: scores) /\
  (forall best scores x, x ∈ best :: scores ->
     (x <= CaptionEngine.feed best scores)%Q) /\
  CaptionEngine.feed 0 [1#2; 3#10; 7#10]%Q = (7#10)%Q /\
  (forall score gpu c, rank_of gpu c = 0 ->
     best_cider_val (worker_of (main (scored score) gpu c))
     = CaptionEngine.feed 0 (score valid <$> seqZ 0 (total_epochs c))) /\
  (forall score gpu c, rank_of gpu c = 1 ->
     best_cider_test (worker_of (main (scored score) gpu c))
     = CaptionEngine.feed 0 (score test <$> seqZ 0 (total_epochs c))).
Proof.
  split; [apply evaluate_metrics_gt|].
  split; [apply evaluate_metrics_le|].
  split; [intros; rewrite feed_app; apply feed_ge|].
  split; [intros; apply feed_elem_of|].
  split; [intros; by apply feed_upper_bound|].
  split; [reflexivity|].
  split.
  - intros score gpu c Hr. rewrite main_returns, Hr. simpl worker_of.
    rewrite best_cider_val_loop. unfold scored, range. rewrite Z.sub_0_r.
    rewrite (foldl_scored (score valid)).
    by destruct (best_setup gpu c) as [-> _].
  - intros score gpu c Hr. rewrite main_returns, Hr. simpl worker_of.
    rewrite best_cider_test_loop. unfold scored, range. rewrite Z.sub_0_r.
    rewrite (foldl_scored (score test)).
    by destruct (best_setup gpu c) as [_ ->].
Qed.

Lemma best_score_is_prefix_max_witness :
  (0 < 1#2)%Q /\
  CaptionEngine.evaluate_metrics (1#2) 0 = (1#2)%Q /\
  rank_of 0 (config_of 0 2 2 1 1 1 0) = 0 /\
  best_cider_val (worker_of (main (scored example_scores) 0 (config_of 0 2 2 1 1 1 0)))
  = CaptionEngine.feed 0 [1#2; 3#10; 7#10]%Q.
Proof.
  split; [reflexivity|].
  split; [apply (proj1 best_score_is_prefix_max); reflexivity|].
  split; [reflexivity|].
  apply (proj1 (proj2 (proj2 (proj2 (proj2 (proj2 (proj2
           best_score_is_prefix_max))))))
         example_scores 0 (config_of 0 2 2 1 1 1 0) eq_refl).
Defined.

(** ** Ranks and devices *)

Lemma ranks_joined_main (evaluate_metrics : Split -> Z -> Q -> Q) gpu c :
  ranks_joined (calls (worker_of (main evaluate_metrics gpu c))) = [rank_of gpu c].
Proof.
  unfold ranks_joined. rewrite (observe_main _ _ (fun _ => [])).
  - rewrite calls_setup, bind_ext_nil. by case_bool_decide.
  - intros. unfold body_calls. by repeat case_bool_decide.
Qed.

Lemma devices_bound_main (evaluate_metrics : Split -> Z -> Q -> Q) gpu c :
  devices_bound (calls (worker_of (main evaluate_metrics gpu c))) = [gpu].
Proof.
  unfold devices_bound. rewrite (observe_main _ _ (fun _ => [])).
  - rewrite calls_setup, bind_ext_nil. by case_bool_decide.
  - intros. unfold body_calls. by repeat case_bool_decide.
Qed.

Lemma node_ranks_seqZ (c : Config) :
  node_ranks c = seqZ (rank (exp c) * ngpus_per_node (exp c)) (ngpus_per_node (exp c)).
Proof.
  unfold node_ranks, rank_of, range. rewrite Z.sub_0_r.
  rewrite (fmap_add_seqZ (rank (exp c) * ngpus_per_node (exp c)) 0).
  by rewrite Z.add_0_r.
Qed.

Lemma cluster_ranks_seqZ (nodes : Z) (c : Config) :
  0 <= ngpus_per_node (exp c) ->
  cluster_ranks nodes c = seqZ 0 (nodes * ngpus_per_node (exp c)).
Proof.
  intros Hd. unfold cluster_ranks, range. rewrite Z.sub_0_r.
  destruct (decide (nodes < 0)) as [Hneg|Hpos].
  { rewrite !seqZ_nil by nia. done. }
  rewrite <- (Z2Nat.id nodes) by lia.
  induction (Z.to_nat nodes) as [|k IH].
  - done.
  - rewrite seqZ_S, bind_app, IH. csimpl. rewrite app_nil_r, node_ranks_seqZ. simpl.
    replace (Z.of_nat (S k) * ngpus_per_node (exp c))
      with (Z.of_nat k * ngpus_per_node (exp c) + ngpus_per_node (exp c)) by lia.
    rewrite seqZ_app by nia. by rewrite !Z.add_0_l.
Qed.

(** C9.  With [d > 0] devices per node, the worker that [run_main] spawns
    for local index [gpu] on node [node] joins the group exactly once, with
    rank [node * d + gpu], where [0 <= gpu < d]; the device it binds to is its
    local index, which is [rank mod d].  Different (node, gpu) pairs get
    different ranks, the ranks of one node are the [d] consecutive integers
    from [node * d], and the ranks of nodes [0 .. nodes-1] are exactly
    [0, 1, ..., nodes * d - 1]: the range [0, world_size) when the configured
    world size is [nodes * d]. *)
Theorem rank_layout (evaluate_metrics : Split -> Z -> Q -> Q) (c : Config) :
  let d := ngpus_per_node (exp c) in
  let node := rank (exp c) in
  0 < d ->
  (forall gpu, gpu ∈ range 0 d -> 0 <= gpu < d) /\
  (forall gpu, 0 <= gpu < d ->
     ranks_joined (calls (worker_of (main evaluate_metrics gpu c))) = [node * d + gpu] /\
     devices_bound (calls (worker_of (main evaluate_metrics gpu c)))
       = [(node * d + gpu) mod d]) /\
  (fun o => ranks_joined (calls (worker_of o))) <$> run_main evaluate_metrics c
    = (fun r => [r]) <$> seqZ (node * d) d /\
  (forall n1 g1 n2 g2, 0 <= g1 < d -> 0 <= g2 < d ->
     rank_of g1 (on_node n1 c) = rank_of g2 (on_node n2 c) -> n1 = n2 /\ g1 = g2) /\
  (forall nodes, cluster_ranks nodes c = seqZ 0 (nodes * d)) /\
  (forall nodes, world_size (exp c) = nodes * d ->
     NoDup (cluster_ranks nodes c) /\
     forall r, r ∈ cluster_ranks nodes c <-> 0 <= r < world_size (exp c)).
Proof.
  intros d node Hd. subst d node.
  split; [intros gpu Hg%elem_of_range; lia|].
  split.
  { intros gpu Hg. rewrite ranks_joined_main, devices_bound_main.
    split; [reflexivity|]. f_equal.
    rewrite Z.add_comm, Z_mod_plus_full. symmetry. by apply Z.mod_small. }
  split.
  { unfold run_main. rewrite <- list_fmap_compose.
    rewrite <- (node_ranks_seqZ c). unfold node_ranks.
    rewrite <- list_fmap_compose. apply list_fmap_ext.
    intros i gpu _. simpl. apply ranks_joined_main. }
  split.
  { unfold rank_of. simpl. intros n1 g1 n2 g2 H1 H2 Heq.
    assert (n1 = n2) by nia. split; [done|]. subst. lia. }
  split.
  { intros nodes. apply cluster_ranks_seqZ. lia. }
  intros nodes Hw. rewrite cluster_ranks_seqZ by lia.
  split; [apply NoDup_seqZ|].
  intros r. rewrite elem_of_seqZ, Hw. lia.
Qed.

(** The layout of the sample configuration: two devices on node 0. *)
Lemma rank_layout_witness :
  0 < ngpus_per_node (exp sample_config) /\
  cluster_ranks 1 sample_config = [0; 1].
Proof.
  split; [reflexivity|].
  exact (proj1 (proj2 (proj2 (proj2 (proj2
    (rank_layout (constant_score 0) sample_config eq_refl))))) 1).
Defined.

(** ** Non-positive phase lengths *)

(** C3, as stated, fails: with all four counts zero the worker sets up and
    returns normally; no [ConfigError] is raised. *)
Lemma zero_config_returns :
  all_nonpositive zero_config /\
  main (constant_score 0) 0 zero_config = Returned (setup 0 zero_config initial) /\
  ~ exists w, main (constant_score 0) 0 zero_config = Raised ConfigError w.
Proof.
  split; [unfold all_nonpositive; simpl; lia|].
  split; [reflexivity|].
  intros [w Hw]. discriminate Hw.
Qed.

(** C3, amended.  When all four per-phase counts are non-positive their
    total is non-positive, so the epoch range is empty and [main] trains no
    epoch; it raises no [ConfigError] for such a configuration. *)
Theorem nonpositive_counts_run_no_epoch (evaluate_metrics : Split -> Z -> Q -> Q)
    (gpu : Z) (c : Config) :
  all_nonpositive c ->
  total_epochs c <= 0 /\
  trained_epochs (calls (worker_of (main evaluate_metrics gpu c))) = [] /\
  forall w, main evaluate_metrics gpu c <> Raised ConfigError w.
Proof.
  intros (H1 & H2 & H3 & H4).
  assert (total_epochs c <= 0) as HT.
  { unfold total_epochs, ft_sc_epochs, ft_xe_epochs, fr_sc_epochs, fr_xe_epochs. lia. }
  split; [done|]. split.
  - rewrite trained_epochs_main. unfold range. by rewrite seqZ_nil by lia.
  - intros w. by rewrite main_returns.
Qed.

Lemma nonpositive_counts_run_no_epoch_witness :
  all_nonpositive zero_config /\
  trained_epochs (calls (worker_of (main (constant_score 0) 0 zero_config))) = [].
Proof.
  assert (all_nonpositive zero_config) as H
    by (unfold all_nonpositive; simpl; lia).
  split; [exact H|].
  exact (proj1 (proj2
    (nonpositive_counts_run_no_epoch (constant_score 0) 0 zero_config H))).
Defined.

(** ** Phase label and training objective *)

(** C1 on the code.  For phase lengths (10, 5, 5, 20) the boundaries are
    (10, 15, 20, 40) and the resolution of the specification puts epoch 9 in
    phase 1, epoch 10 in phase 2, epoch 39 in phase 4 and rejects epoch 40.
    The loop, however, labels every epoch [ft_xe], the third phase: at epoch 9
    rank 0 evaluates and saves under [ft_xe], not under the label of phase 1. *)
Theorem phase_label_is_constant :
  boundaries sample_config = (10, 15, 20, 40) /\
  resolve_spec sample_config 9 = Some freeze_likelihood /\
  resolve_spec sample_config 10 = Some freeze_reward /\
  resolve_spec sample_config 39 = Some finetune_reward /\
  resolve_spec sample_config 40 = None /\
  (forall e, phase e = label finetune_likelihood) /\
  Some (phase 9) <> (label <$> resolve_spec sample_config 9) /\
  (9, "ft_xe") ∈ labels_used
    (calls (worker_of (main (constant_score (1#2)) 0 sample_config))) /\
  (9, "fr_xe") ∉ labels_used
    (calls (worker_of (main (constant_score (1#2)) 0 sample_config))).
Proof.
  split; [reflexivity|]. split; [reflexivity|]. split; [reflexivity|].
  split; [reflexivity|]. split; [reflexivity|]. split; [reflexivity|].
  split; [discriminate|].
  split.
  - apply (bool_decide_unpack _). by vm_compute.
  - apply (bool_decide_unpack _). by vm_compute.
Qed.

(** C2 on the code.  Epoch 10 of the sample configuration lies in the
    freeze-reward phase, whose tag is the reward objective, but the step the
    worker runs in epoch 10 is [train_xe], the likelihood objective; no run
    of [main] ever calls the reward-based step. *)
Theorem objective_is_always_likelihood (evaluate_metrics : Split -> Z -> Q -> Q)
    (gpu : Z) :
  (tag <$> resolve_spec sample_config 10) = Some reward /\
  objectives_at 10 (calls (worker_of (main evaluate_metrics gpu sample_config)))
    = [likelihood] /\
  forall c e,
    reward ∉ objectives_at e (calls (worker_of (main evaluate_metrics gpu c))).
Proof.
  split; [reflexivity|]. split.
  - rewrite objectives_main. reflexivity.
  - intros c e. rewrite objectives_main.
    induction (range 0 (total_epochs c)) as [|x l IH]; csimpl.
    + apply not_elem_of_nil.
    + case_bool_decide; set_solver.
Qed.

(** ** What the checkpoint records *)

(** C8 on the code.  On rank 0 with one epoch and a validation score of 0.5,
    the best validation score tracked after epoch 0 is 0.5, yet the record
    saved at epoch 0 carries [best_ciders = [0, 0]]; every record [main]
    saves carries these zeros, whatever was tracked. *)
Theorem checkpoint_records_zero_best :
  best_cider_val (worker_of (main (constant_score (1#2)) 0 (config_of 0 2 2 1 0 0 0)))
    = (1#2)%Q /\
  disk_of (calls (worker_of (main (constant_score (1#2)) 0 (config_of 0 2 2 1 0 0 0))))
    !! "checkpoint_ft_xe.pth"
    = Some {| ckpt_epoch := 0; ckpt_scores := []; ckpt_best_ciders := [0%Q; 0%Q];
              ckpt_filename := "checkpoint_ft_xe.pth" |} /\
  forall evaluate_metrics gpu c r,
    r ∈ saves (calls (worker_of (main evaluate_metrics gpu c))) ->
    ckpt_best_ciders r = [0%Q; 0%Q] /\ ckpt_scores r = [].
Proof.
  split; [reflexivity|]. split; [by vm_compute|].
  intros em gpu c r. rewrite saves_main.
  intros (e & Hr & _)%list_elem_of_bind.
  repeat case_bool_decide; set_solver.
Qed.


(** * Further properties of the driver *)

(** ** Writers and evaluating ranks *)

Lemma writers_main (evaluate_metrics : Split -> Z -> Q -> Q) gpu c :
  writers (calls (worker_of (main evaluate_metrics gpu c)))
  = if bool_decide (rank_of gpu c = 0 \/ rank_of gpu c = 1) then [tt] else [].
Proof.
  unfold writers. rewrite (observe_main _ _ (fun _ => [])).
  - rewrite calls_setup, bind_ext_nil. by case_bool_decide.
  - intros. unfold body_calls. by repeat case_bool_decide.
Qed.

(** X1.  A worker opens a tensorboard writer exactly when its rank is 0 or
    1, that is, exactly when some split is designated to it, and it opens at
    most one.  So every worker that evaluates a split in some epoch has a
    writer, and a worker without a split has none. *)
Theorem writer_iff_split_assigned (evaluate_metrics : Split -> Z -> Q -> Q)
    (gpu : Z) (c : Config) :
  let w := worker_of (main evaluate_metrics gpu c) in
  let r := rank_of gpu c in
  (summary_writer ∈ calls w <-> r = 0 \/ r = 1) /\
  (summary_writer ∈ calls w <-> exists s, r = designated_rank s) /\
  (length (writers (calls w)) <= 1)%nat /\
  (forall e s, (e, s) ∈ evaluations (calls w) -> summary_writer ∈ calls w) /\
  (summary_writer ∉ calls w -> evaluations (calls w) = []).
Proof.
  intros w r.
  assert (summary_writer ∈ calls w <-> r = 0 \/ r = 1) as Hw.
  { split.
    - intros Hin.
      assert (tt ∈ writers (calls w)) as Ht.
      { apply list_elem_of_omap. by exists summary_writer. }
      subst w. rewrite writers_main in Ht. fold r in Ht.
      case_bool_decide; [done|]. by apply elem_of_nil in Ht.
    - intros Hr.
      assert (tt ∈ writers (calls w)) as Ht.
      { subst w. rewrite writers_main. fold r.
        rewrite bool_decide_eq_true_2 by done. apply list_elem_of_here. }
      apply list_elem_of_omap in Ht as (x & Hx & Hsome).
      destruct x; try discriminate. done. }
  assert ((exists s, r = designated_rank s) <-> r = 0 \/ r = 1) as Hs.
  { split.
    - intros [[] ->]; [by left|by right].
    - intros [->| ->]; [by exists valid|by exists test]. }
  split; [done|]. split; [by rewrite Hs|]. split.
  { subst w. rewrite writers_main. case_bool_decide; simpl; lia. }
  assert (forall e s, (e, s) ∈ evaluations (calls w) -> r = designated_rank s) as He.
  { intros e s. subst w. rewrite evaluations_main. fold r.
    intros (e' & Hin & _)%list_elem_of_bind.
    apply list_elem_of_fmap in Hin as (s' & [= -> ->] & Hin).
    by apply elem_of_splits_of_rank in Hin. }
  split.
  { intros e s Hin%He. apply Hw, Hs. by exists s. }
  intros Hno. apply elem_of_nil_inv. intros [e s] Hin.
  apply Hno. apply Hw, Hs. exists s. by apply (He e).
Qed.

(** ** Barriers *)

Lemma barriers_main (evaluate_metrics : Split -> Z -> Q -> Q) gpu c :
  barriers (calls (worker_of (main evaluate_metrics gpu c)))
  = range 0 (total_epochs c) ≫= (fun _ => [tt]).
Proof.
  unfold barriers. rewrite (observe_main _ _ (fun _ => [tt])).
  - rewrite calls_setup. by case_bool_decide.
  - intros. unfold body_calls. by repeat case_bool_decide.
Qed.

Lemma length_bind_const {A} (x : A) (l : list Z) :
  length (l ≫= (fun _ => [x])) = length l.
Proof. induction l as [|e l IH]; csimpl; [done|]. by rewrite IH. Qed.

(** X3.  Every worker waits at the barrier once per epoch it trains, and
    the number of epochs does not depend on the rank: all workers started
    with the same phase lengths wait at the same number of barriers,
    [max 0 total_epochs], whatever branch of the rank tests they take. *)
Theorem barrier_count_uniform (evaluate_metrics : Split -> Z -> Q -> Q)
    (gpu gpu' : Z) (c c' : Config) :
  optimizer c = optimizer c' ->
  length (barriers (calls (worker_of (main evaluate_metrics gpu c))))
    = Z.to_nat (total_epochs c) /\
  length (barriers (calls (worker_of (main evaluate_metrics gpu c))))
    = length (trained_epochs (calls (worker_of (main evaluate_metrics gpu c)))) /\
  length (barriers (calls (worker_of (main evaluate_metrics gpu c))))
    = length (barriers (calls (worker_of (main evaluate_metrics gpu' c')))).
Proof.
  intros Hopt.
  assert (forall g k,
    length (barriers (calls (worker_of (main evaluate_metrics g k))))
    = Z.to_nat (total_epochs k)) as Hlen.
  { intros g k. rewrite barriers_main, length_bind_const.
    unfold range. rewrite length_seqZ. f_equal. lia. }
  split; [apply Hlen|]. split.
  - rewrite Hlen, trained_epochs_main. unfold range. rewrite length_seqZ.
    f_equal. lia.
  - rewrite !Hlen. unfold total_epochs, ft_sc_epochs, ft_xe_epochs, fr_sc_epochs,
      fr_xe_epochs. by rewrite Hopt.
Qed.

(** Ranks 0 (node 0) and 3 (node 1) of a two-node run. *)
Lemma barrier_count_uniform_witness :
  optimizer sample_config = optimizer (on_node 1 sample_config) /\
  length (barriers (calls (worker_of (main (constant_score (1#2)) 0 sample_config))))
  = 40%nat.
Proof.
  split; [reflexivity|].
  exact (proj1 (barrier_count_uniform (constant_score (1#2)) 0 1
                  sample_config (on_node 1 sample_config) eq_refl)).
Defined.

(** ** Best scores of splits a worker does not evaluate *)

Lemma best_cider_val_frame (evaluate_metrics : Split -> Z -> Q -> Q) r l :
  r <> 0 -> forall w,
  best_cider_val (foldl (epoch_body evaluate_metrics r) w l) = best_cider_val w.
Proof.
  intros Hr. induction l as [|e l IH]; intros w; simpl; [done|].
  rewrite IH, best_cider_val_epoch_body. by rewrite bool_decide_eq_false_2.
Qed.

Lemma best_cider_test_frame (evaluate_metrics : Split -> Z -> Q -> Q) r l :
  r <> 1 -> forall w,
  best_cider_test (foldl (epoch_body evaluate_metrics r) w l) = best_cider_test w.
Proof.
  intros Hr. induction l as [|e l IH]; intros w; simpl; [done|].
  rewrite IH, best_cider_test_epoch_body. by rewrite bool_decide_eq_false_2.
Qed.

(** X4.  A worker's best score for a split it does not evaluate is never
    touched: whatever the evaluations return, [best_cider_val] is still 0.0
    at the end of the run on every rank but 0, and [best_cider_test] is still
    0.0 on every rank but 1.  In particular rank 0, the rank that writes the
    checkpoints, never learns a test score. *)
Theorem unassigned_best_stays_zero (evaluate_metrics : Split -> Z -> Q -> Q)
    (gpu : Z) (c : Config) :
  let w := worker_of (main evaluate_metrics gpu c) in
  (rank_of gpu c <> 0 -> best_cider_val w = 0%Q) /\
  (rank_of gpu c <> 1 -> best_cider_test w = 0%Q) /\
  (rank_of gpu c = 0 -> best_cider_test w = 0%Q).
Proof.
  intros w. subst w. rewrite main_returns. simpl worker_of.
  destruct (best_setup gpu c) as [Hv Ht].
  split; [|split].
  - intros Hr. by rewrite best_cider_val_frame.
  - intros Hr. by rewrite best_cider_test_frame.
  - intros Hr. rewrite best_cider_test_frame; [done|lia].
Qed.

(** Rank 0 under an evaluation that reports 0.9 for every split and epoch. *)
Lemma unassigned_best_stays_zero_witness :
  rank_of 0 sample_config = 0 /\
  best_cider_test (worker_of (main (constant_score (9#10)) 0 sample_config)) = 0%Q.
Proof.
  split; [reflexivity|].
  exact (proj2 (proj2 (unassigned_best_stays_zero (constant_score (9#10)) 0
                         sample_config)) eq_refl).
Defined.

(** ** The best score handed from one epoch to the next *)

Lemma best_passed_loop_val (evaluate_metrics : Split -> Z -> Q -> Q) (w0 : Worker) (n : nat) :
  best_passed (calls (foldl (epoch_body evaluate_metrics 0) w0 (seqZ 0 (Z.of_nat n))))
  = best_passed (calls w0)
    ++ ((fun e => (e, valid,
                   foldl (fun best epoch => evaluate_metrics valid epoch best)
                         (best_cider_val w0) (seqZ 0 e)))
        <$> seqZ 0 (Z.of_nat n)).
Proof.
  induction n as [|k IH].
  - simpl. by rewrite app_nil_r.
  - rewrite seqZ_S, foldl_app, fmap_app, app_assoc, <- IH. cbn [foldl].
    unfold best_passed. rewrite calls_epoch_body, omap_app.
    rewrite best_cider_val_loop, !Z.add_0_l. f_equal.
    unfold body_calls. repeat case_bool_decide; done.
Qed.

Lemma best_passed_loop_test (evaluate_metrics : Split -> Z -> Q -> Q) (w0 : Worker) (n : nat) :
  best_passed (calls (foldl (epoch_body evaluate_metrics 1) w0 (seqZ 0 (Z.of_nat n))))
  = best_passed (calls w0)
    ++ ((fun e => (e, test,
                   foldl (fun best epoch => evaluate_metrics test epoch best)
                         (best_cider_test w0) (seqZ 0 e)))
        <$> seqZ 0 (Z.of_nat n)).
Proof.
  induction n as [|k IH].
  - simpl. by rewrite app_nil_r.
  - rewrite seqZ_S, foldl_app, fmap_app, app_assoc, <- IH. cbn [foldl].
    unfold best_passed. rewrite calls_epoch_body, omap_app.
    rewrite best_cider_test_loop, !Z.add_0_l. f_equal.
Qed.

Lemma seqZ_to_nat (n : Z) : seqZ 0 n = seqZ 0 (Z.of_nat (Z.to_nat n)).
Proof. unfold seqZ. by rewrite Nat2Z.id. Qed.

Lemma best_passed_setup gpu c : best_passed (calls (setup gpu c initial)) = [].
Proof. rewrite calls_setup. by case_bool_decide. Qed.

(** X5.  The [best_cider] a designated rank passes to [evaluate_metrics] in
    epoch [e] is exactly what the call of epoch [e-1] returned, and 0.0 in
    epoch 0: nothing else ever writes the variable.  This holds whatever
    [evaluate_metrics] returns; the value left at the end of the run is the
    result of the last call. *)
Theorem best_cider_threading (evaluate_metrics : Split -> Z -> Q -> Q)
    (gpu : Z) (c : Config) :
  let w := worker_of (main evaluate_metrics gpu c) in
  (forall s, tracked evaluate_metrics s 0 = 0%Q) /\
  (forall s e, 0 <= e ->
     tracked evaluate_metrics s (e + 1)
     = evaluate_metrics s e (tracked evaluate_metrics s e)) /\
  (rank_of gpu c = 0 ->
     best_passed (calls w)
       = (fun e => (e, valid, tracked evaluate_metrics valid e))
         <$> seqZ 0 (total_epochs c) /\
     best_cider_val w = tracked evaluate_metrics valid (total_epochs c)) /\
  (rank_of gpu c = 1 ->
     best_passed (calls w)
       = (fun e => (e, test, tracked evaluate_metrics test e))
         <$> seqZ 0 (total_epochs c) /\
     best_cider_test w = tracked evaluate_metrics test (total_epochs c)).
Proof.
  intros w. subst w. rewrite main_returns. simpl worker_of.
  unfold range. rewrite Z.sub_0_r.
  destruct (best_setup gpu c) as [Hv Ht].
  split; [done|]. split.
  { intros s e He. unfold tracked.
    rewrite <- (Z2Nat.id e) by done.
    replace (Z.of_nat (Z.to_nat e) + 1) with (Z.of_nat (S (Z.to_nat e))) by lia.
    by rewrite seqZ_S, foldl_app. }
  split.
  - intros ->. split.
    + rewrite (seqZ_to_nat (total_epochs c)), best_passed_loop_val.
      by rewrite best_passed_setup, Hv.
    + rewrite best_cider_val_loop. by rewrite Hv.
  - intros ->. split.
    + rewrite (seqZ_to_nat (total_epochs c)), best_passed_loop_test.
      by rewrite best_passed_setup, Ht.
    + rewrite best_cider_test_loop. by rewrite Ht.
Qed.

(** Three epochs on rank 0 with the scores 0.5, 0.3, 0.7. *)
Lemma best_cider_threading_witness :
  rank_of 0 (config_of 0 2 2 1 1 1 0) = 0 /\
  best_passed (calls (worker_of (main (scored example_scores) 0 (config_of 0 2 2 1 1 1 0))))
  = [(0, valid, 0%Q); (1, valid, 1#2); (2, valid, 1#2)].
Proof.
  split; [reflexivity|].
  exact (proj1 (proj1 (proj2 (proj2
    (best_cider_threading (scored example_scores) 0 (config_of 0 2 2 1 1 1 0))))
    eq_refl)).
Defined.

(** ** The checkpoint directory as a whole *)

Lemma disk_of_main_rank0 (evaluate_metrics : Split -> Z -> Q -> Q) gpu c :
  rank_of gpu c = 0 ->
  saves (calls (worker_of (main evaluate_metrics gpu c)))
    = seqZ 0 (total_epochs c) ≫= epoch_saves /\
  disk_of (calls (worker_of (main evaluate_metrics gpu c)))
    = disk_after (total_epochs c).
Proof.
  intros Hr. unfold disk_of. rewrite saves_main, Hr.
  unfold range. rewrite Z.sub_0_r. done.
Qed.

Lemma disk_after_rolling_0 : disk_after 0 !! ckpt_filename (rolling 0) = None.
Proof. done. Qed.

Lemma size_disk_after (k : nat) :
  size (disk_after (Z.of_nat k)) = files_after (Z.of_nat k).
Proof.
  pose proof (eq_refl : milestone_epoch = 15) as Hm.
  induction k as [|k IH]; [done|].
  rewrite disk_after_S. unfold epoch_saves, CaptionEngine.save_checkpoint.
  assert (size (<[ckpt_filename (rolling (Z.of_nat k)) := rolling (Z.of_nat k)]>
                  (disk_after (Z.of_nat k)))
          = if bool_decide (k = 0%nat) then 1%nat else files_after (Z.of_nat k))
    as Hroll.
  { destruct k as [|k'].
    - by rewrite map_size_insert_None.
    - rewrite bool_decide_eq_false_2 by done.
      rewrite map_size_insert_Some; [done|].
      change (ckpt_filename (rolling (Z.of_nat (S k'))))
        with (ckpt_filename (rolling 0)).
      rewrite disk_after_rolling. by eexists. }
  destruct (decide (Z.of_nat k >= milestone_epoch)) as [Hk|Hk].
  - rewrite (bool_decide_eq_true_2 _ Hk). cbn [foldl].
    rewrite map_size_insert_None.
    + rewrite Hroll, bool_decide_eq_false_2 by lia.
      unfold files_after. rewrite !bool_decide_eq_true_2 by lia. lia.
    + rewrite lookup_insert_ne
        by (intros Heq; symmetry in Heq; by apply milestone_name_ne_rolling in Heq).
      rewrite disk_after_milestone. by rewrite bool_decide_eq_false_2 by lia.
  - rewrite (bool_decide_eq_false_2 _ Hk). cbn [foldl]. rewrite Hroll.
    unfold files_after. destruct k as [|k']; [done|].
    rewrite bool_decide_eq_false_2 by done.
    rewrite !bool_decide_eq_true_2 by lia. lia.
Qed.

Lemma disk_after_lookup_Some (k : nat) (name : string) (r : CheckpointRecord) :
  disk_after (Z.of_nat k) !! name = Some r ->
  (name = ckpt_filename (rolling 0) /\ r = rolling (Z.of_nat k - 1)) \/
  (exists e, milestone_epoch <= e < Z.of_nat k /\
             name = ckpt_filename (milestone e) /\ r = milestone e).
Proof.
  revert r. induction k as [|k IH]; intros r; [done|].
  rewrite disk_after_S, lookup_epoch_saves.
  destruct (decide (Z.of_nat k >= milestone_epoch /\
                    name = ckpt_filename (milestone (Z.of_nat k)))) as [[Hk ->]|Hn].
  - rewrite bool_decide_eq_true_2 by done. intros [= <-].
    right. exists (Z.of_nat k). split; [lia|done].
  - rewrite (bool_decide_eq_false_2 _ Hn).
    destruct (decide (name = ckpt_filename (rolling (Z.of_nat k)))) as [->|Hr].
    + rewrite bool_decide_eq_true_2 by done. intros [= <-].
      left. split; [done|]. f_equal. lia.
    + rewrite (bool_decide_eq_false_2 _ Hr). intros Hl.
      apply IH in Hl as [[-> _]|(e & He & -> & ->)]; [by destruct Hr|].
      right. exists e. split; [lia|done].
Qed.

Lemma length_epoch_saves_loop (k : nat) :
  length (seqZ 0 (Z.of_nat k) ≫= epoch_saves)
  = (k + Z.to_nat (Z.of_nat k - milestone_epoch))%nat.
Proof.
  pose proof (eq_refl : milestone_epoch = 15) as Hm.
  induction k as [|k IH]; [done|].
  rewrite seqZ_S, bind_app, length_app, IH. csimpl. rewrite app_nil_r.
  unfold epoch_saves. case_bool_decide; simpl; lia.
Qed.

(** X6.  On rank 0, a run of [T] epochs calls [save_checkpoint]
    [T + max 0 (T - 15)] times and leaves [files_after T] files: the rolling
    file if at least one epoch ran, plus one numbered file per epoch from 15
    on.  Every file present is one of these, is stored under the name its
    record carries, and holds the record of the last epoch (rolling file) or
    of its own epoch (numbered file). *)
Theorem checkpoint_directory (evaluate_metrics : Split -> Z -> Q -> Q)
    (gpu : Z) (c : Config) :
  rank_of gpu c = 0 ->
  let w := worker_of (main evaluate_metrics gpu c) in
  let d := disk_of (calls w) in
  length (saves (calls w))
    = (Z.to_nat (total_epochs c) + Z.to_nat (total_epochs c - milestone_epoch))%nat /\
  size d = files_after (total_epochs c) /\
  forall name r, d !! name = Some r ->
    ckpt_filename r = name /\
    ((name = "checkpoint_ft_xe.pth" /\ ckpt_epoch r = total_epochs c - 1) \/
     (exists e, milestone_epoch <= e < total_epochs c /\
                name = "checkpoint_" +:+ pretty e +:+ ".pth" /\ ckpt_epoch r = e)).
Proof.
  intros Hr w d. subst d w.
  destruct (disk_of_main_rank0 evaluate_metrics gpu c Hr) as [-> ->].
  pose proof (eq_refl : milestone_epoch = 15) as Hm.
  assert (total_epochs c <= 0 \/ total_epochs c = Z.of_nat (Z.to_nat (total_epochs c)))
    as [Hneg|HT] by lia.
  { rewrite disk_after_to_nat, (seqZ_to_nat (total_epochs c)).
    replace (Z.to_nat (total_epochs c)) with 0%nat by lia.
    split; [simpl; lia|]. split.
    - rewrite (size_disk_after 0). unfold files_after.
      rewrite !bool_decide_eq_false_2 by lia. simpl. lia.
    - intros name r Hl. done. }
  rewrite disk_after_to_nat, (seqZ_to_nat (total_epochs c)).
  split; [rewrite length_epoch_saves_loop; lia|].
  split; [rewrite size_disk_after; by rewrite <- HT|].
  intros name r Hl.
  apply disk_after_lookup_Some in Hl as [[-> ->]|(e & He & -> & ->)].
  - split; [done|]. left. split; [done|]. simpl. lia.
  - split; [done|]. right. exists e. split; [lia|done].
Qed.

(** The sample configuration: 40 epochs, 65 saves, 26 files. *)
Lemma checkpoint_directory_witness :
  rank_of 0 sample_config = 0 /\
  size (disk_of (calls (worker_of (main (constant_score (1#2)) 0 sample_config))))
  = 26%nat.
Proof.
  split; [reflexivity|].
  exact (proj1 (proj2 (checkpoint_directory (constant_score (1#2)) 0
                         sample_config eq_refl))).
Defined.

(** ** The order of the calls *)

Lemma steps_main (evaluate_metrics : Split -> Z -> Q -> Q) gpu c :
  steps (calls (worker_of (main evaluate_metrics gpu c)))
  = seqZ 0 (total_epochs c) ≫= epoch_steps (rank_of gpu c).
Proof.
  unfold steps. rewrite (observe_main _ _ (epoch_steps (rank_of gpu c))).
  - rewrite calls_setup. unfold range. rewrite Z.sub_0_r. by case_bool_decide.
  - intros. unfold body_calls, epoch_steps, splits_of_rank, epoch_saves.
    repeat case_bool_decide; done.
Qed.

Lemma calls_loop_extends (evaluate_metrics : Split -> Z -> Q -> Q) r l :
  forall w, exists rest,
    calls (foldl (epoch_body evaluate_metrics r) w l) = calls w ++ rest.
Proof.
  induction l as [|e l IH]; intros w; simpl.
  - exists []. by rewrite app_nil_r.
  - destruct (IH (epoch_body evaluate_metrics r w e)) as [rest ->].
    rewrite calls_epoch_body, <- app_assoc. by eexists.
Qed.

Lemma last_call_epoch_body (evaluate_metrics : Split -> Z -> Q -> Q) r w e :
  last (calls (epoch_body evaluate_metrics r w e)) = Some barrier.
Proof. unfold epoch_body. cbn [calls call]. apply last_snoc. Qed.

(** X7.  Every epoch of every worker follows one order: the training step,
    then the sampler's [set_epoch] for that same epoch (so the first training
    step runs before any [set_epoch]), then the evaluation of the worker's
    split if it has one, then on rank 0 the rolling save followed by the
    numbered save, and last the barrier.  Nothing of this happens before the
    loop; a worker's first call joins the process group with its rank, and
    the last call of a run with at least one epoch is a barrier. *)
Theorem epoch_call_order (evaluate_metrics : Split -> Z -> Q -> Q)
    (gpu : Z) (c : Config) :
  let w := worker_of (main evaluate_metrics gpu c) in
  let r := rank_of gpu c in
  steps (calls (setup gpu c initial)) = [] /\
  steps (calls w)
    = seqZ 0 (total_epochs c) ≫=
        (fun e => [Strain e r; Sset_epoch e]
                  ++ (Sevaluate e <$> splits_of_rank r)
                  ++ (if bool_decide (r = 0)
                      then Ssave e "checkpoint_ft_xe.pth" ::
                           (if bool_decide (e >= milestone_epoch)
                            then [Ssave e ("checkpoint_" +:+ pretty e +:+ ".pth")]
                            else [])
                      else [])
                  ++ [Sbarrier]) /\
  head (calls w) = Some (init_process_group r (world_size (exp c))) /\
  (0 < total_epochs c -> last (calls w) = Some barrier).
Proof.
  intros w r. split.
  { rewrite calls_setup. by case_bool_decide. }
  split.
  { subst w. rewrite steps_main. fold r.
    apply list_bind_ext; [|done].
    intros e. unfold epoch_steps, epoch_saves.
    repeat case_bool_decide; done. }
  split.
  - subst w. rewrite main_returns. simpl worker_of.
    destruct (calls_loop_extends evaluate_metrics (rank_of gpu c)
                (range 0 (total_epochs c)) (setup gpu c initial)) as [rest ->].
    by rewrite calls_setup.
  - intros HT. subst w. rewrite main_returns. simpl worker_of. unfold range.
    rewrite Z.sub_0_r, (seqZ_to_nat (total_epochs c)).
    destruct (Z.to_nat (total_epochs c)) as [|k] eqn:Hk; [lia|].
    rewrite seqZ_S, foldl_app. cbn [foldl]. apply last_call_epoch_body.
Qed.

(** Rank 0 of the sample configuration ends at a barrier. *)
Lemma epoch_call_order_witness :
  0 < total_epochs sample_config /\
  last (calls (worker_of (main (constant_score (1#2)) 0 sample_config)))
  = Some barrier.
Proof.
  split; [reflexivity|].
  exact (proj2 (proj2 (proj2
    (epoch_call_order (constant_score (1#2)) 0 sample_config))) eq_refl).
Defined.

(** Rank 1 of the sample configuration opens a writer. *)
Lemma writer_iff_split_assigned_witness :
  rank_of 1 sample_config = 1 /\
  summary_writer ∈ calls (worker_of (main (constant_score (1#2)) 1 sample_config)).
Proof.
  split; [reflexivity|].
  exact (proj2 (proj1 (writer_iff_split_assigned (constant_score (1#2)) 1
                         sample_config)) (or_intror eq_refl)).
Defined.

(** ** The workers of one node *)

Lemma seeds_main (evaluate_metrics : Split -> Z -> Q -> Q) gpu c :
  seeds (calls (worker_of (main evaluate_metrics gpu c))) = [seed (exp c)].
Proof.
  unfold seeds. rewrite (observe_main _ _ (fun _ => [])).
  - rewrite calls_setup, bind_ext_nil. by case_bool_decide.
  - intros. unfold body_calls. by repeat case_bool_decide.
Qed.

Lemma world_sizes_main (evaluate_metrics : Split -> Z -> Q -> Q) gpu c :
  world_sizes (calls (worker_of (main evaluate_metrics gpu c))) = [world_size (exp c)].
Proof.
  unfold world_sizes. rewrite (observe_main _ _ (fun _ => [])).
  - rewrite calls_setup, bind_ext_nil. by case_bool_decide.
  - intros. unfold body_calls. by repeat case_bool_decide.
Qed.

Lemma devices_of_workers (evaluate_metrics : Split -> Z -> Q -> Q) c (l : list Z) :
  ((fun gpu => main evaluate_metrics gpu c) <$> l)
    ≫= (fun o => devices_bound (calls (worker_of o))) = l.
Proof.
  induction l as [|g l IH]; [done|].
  rewrite fmap_cons, bind_cons, devices_bound_main, IH. done.
Qed.

(** X2.  The workers [run_main] starts on a node bind the devices
    [0, 1, ..., ngpus_per_node - 1], one each and in spawn order: no device is
    bound twice and two workers that bind the same device are the same
    worker.  Every one of them sets the configured seed, once, and joins the
    group once with the configured world size, whatever the number of workers
    started. *)
Theorem run_main_workers (evaluate_metrics : Split -> Z -> Q -> Q) (c : Config) :
  let d := ngpus_per_node (exp c) in
  (fun o => devices_bound (calls (worker_of o))) <$> run_main evaluate_metrics c
    = (fun gpu => [gpu]) <$> seqZ 0 d /\
  run_main evaluate_metrics c ≫= (fun o => devices_bound (calls (worker_of o)))
    = seqZ 0 d /\
  NoDup (run_main evaluate_metrics c
           ≫= (fun o => devices_bound (calls (worker_of o)))) /\
  (forall o o', o ∈ run_main evaluate_metrics c -> o' ∈ run_main evaluate_metrics c ->
     devices_bound (calls (worker_of o)) = devices_bound (calls (worker_of o')) ->
     o = o') /\
  (forall o, o ∈ run_main evaluate_metrics c ->
     seeds (calls (worker_of o)) = [seed (exp c)] /\
     world_sizes (calls (worker_of o)) = [world_size (exp c)]).
Proof.
  intros d. subst d. unfold run_main, range. rewrite Z.sub_0_r.
  split.
  { rewrite <- list_fmap_compose. apply list_fmap_ext.
    intros i gpu _. simpl. apply devices_bound_main. }
  split; [apply devices_of_workers|].
  split; [rewrite devices_of_workers; apply NoDup_seqZ|].
  split.
  - intros o o' (g & -> & _)%list_elem_of_fmap (g' & -> & _)%list_elem_of_fmap.
    rewrite !devices_bound_main. by intros [= ->].
  - intros o (gpu & -> & _)%list_elem_of_fmap.
    split; [apply seeds_main|apply world_sizes_main].
Qed.

(** The second worker of the sample configuration. *)
Lemma run_main_workers_witness :
  main (constant_score (1#2)) 1 sample_config ∈ run_main (constant_score (1#2)) sample_config /\
  seeds (calls (worker_of (main (constant_score (1#2)) 1 sample_config))) = [1234].
Proof.
  assert (main (constant_score (1#2)) 1 sample_config
            ∈ run_main (constant_score (1#2)) sample_config) as Hin.
  { unfold run_main. apply list_elem_of_fmap. exists 1. split; [reflexivity|].
    apply elem_of_range. simpl. lia. }
  split; [exact Hin|].
  exact (proj1 (proj2 (proj2 (proj2 (proj2
    (run_main_workers (constant_score (1#2)) sample_config))))
    (main (constant_score (1#2)) 1 sample_config) Hin)).
Defined.

(** ** One writer of checkpoints in the whole cluster *)

(** X10.  With [d > 0] devices per node, among all workers of all nodes the
    only one that ever calls [save_checkpoint] is local index 0 on node 0, and
    it does so as soon as the run has one epoch: checkpoint files are written
    by a single process. *)
Theorem single_checkpoint_writer (evaluate_metrics : Split -> Z -> Q -> Q)
    (c : Config) (node gpu : Z) :
  0 < ngpus_per_node (exp c) ->
  0 <= gpu < ngpus_per_node (exp c) ->
  saves (calls (worker_of (main evaluate_metrics gpu (on_node node c)))) <> []
  <-> (node = 0 /\ gpu = 0 /\ 0 < total_epochs c).
Proof.
  intros Hd Hg. rewrite saves_main.
  change (total_epochs (on_node node c)) with (total_epochs c).
  change (rank_of gpu (on_node node c)) with (node * ngpus_per_node (exp c) + gpu).
  unfold range. rewrite Z.sub_0_r. split.
  - intros Hne. case_bool_decide as Hr.
    + assert (node = 0) as -> by nia. split; [done|]. split; [lia|].
      destruct (decide (0 < total_epochs c)) as [|Hn]; [done|].
      destruct Hne. by rewrite seqZ_nil by lia.
    + destruct Hne. apply bind_ext_nil.
  - intros (-> & -> & HT). rewrite bool_decide_eq_true_2 by lia.
    rewrite seqZ_cons by done. by csimpl.
Qed.

(** Node 0, local index 0 of the sample configuration. *)
Lemma single_checkpoint_writer_witness :
  saves (calls (worker_of (main (constant_score (1#2)) 0 (on_node 0 sample_config))))
  <> [].
Proof.
  apply (proj2 (single_checkpoint_writer (constant_score (1#2)) sample_config 0 0
                  eq_refl (conj (Z.le_refl 0) eq_refl))).
  split; [reflexivity|]. split; reflexivity.
Defined.

(** ** What the schedule of calls depends on *)

(** X8.  Which calls the driver makes, in which order and with which epoch,
    rank, split and file name, is fixed by the worker's rank and the sum of
    the four phase lengths alone: it is the same however the sum is split into
    phases, whatever node and local index give the rank, and whatever the
    evaluations return.  (What the collaborators do with the configuration
    they are handed is not part of the schedule.) *)
Theorem schedule_depends_only_on_rank_and_total
    (evaluate_metrics evaluate_metrics' : Split -> Z -> Q -> Q)
    (gpu gpu' : Z) (c c' : Config) :
  rank_of gpu c = rank_of gpu' c' ->
  freezing_xe_epochs (optimizer c) + freezing_sc_epochs (optimizer c)
    + finetune_xe_epochs (optimizer c) + finetune_sc_epochs (optimizer c)
  = freezing_xe_epochs (optimizer c') + freezing_sc_epochs (optimizer c')
    + finetune_xe_epochs (optimizer c') + finetune_sc_epochs (optimizer c') ->
  steps (calls (worker_of (main evaluate_metrics gpu c)))
  = steps (calls (worker_of (main evaluate_metrics' gpu' c'))).
Proof.
  intros Hrank Hsum.
  assert (total_epochs c = total_epochs c') as HT.
  { unfold total_epochs, ft_sc_epochs, ft_xe_epochs, fr_sc_epochs, fr_xe_epochs. lia. }
  by rewrite !steps_main, Hrank, HT.
Qed.

(** Phase lengths (10, 5, 5, 20) with scores 0.5 against a single phase of
    40 epochs with scores 0.9, both on rank 0. *)
Lemma schedule_depends_only_on_rank_and_total_witness :
  steps (calls (worker_of (main (constant_score (1#2)) 0 sample_config)))
  = steps (calls (worker_of (main (constant_score (9#10)) 0 (config_of 0 2 2 40 0 0 0)))).
Proof.
  exact (schedule_depends_only_on_rank_and_total (constant_score (1#2))
           (constant_score (9#10)) 0 0 sample_config (config_of 0 2 2 40 0 0 0)
           eq_refl eq_refl).
Defined.
